(** * dxf-cheddar: flattened plates with a row of evenly spaced holes

    Shallow embedding of [generate_dxf.py] and of the older script [main.py].

    Numbers.  The scripts compute with Python [int] and [float].  They are
    idealised here as real numbers: [+], [-], [*], [/] are the field
    operations of [R], [==], [>], [>=] on numbers are the decidable
    comparisons of [R], and [math.sin] / [math.cos] are [sin] / [cos].
    Rounding of binary floating point is not modelled.

    Objects.  A Python object with attributes is a record; a method that
    mutates [self] takes the object and gives back the mutated object.  A
    call that can raise gives back the state reached together with an
    [outcome], so that what was mutated before the exception stays visible. *)

From Stdlib Require Import String Reals Lra List Arith Lia.
Import ListNotations.
Open Scope R_scope.

(** ** Exceptions *)

Inductive exn : Type :=
| AssertionError (msg : string)
| ValueError (msg : string).

Inductive outcome : Type :=
| Returned
| Raised (e : exn).

(** A keyword argument with a default value. *)
Definition default (d : R) (arg : option R) : R :=
  match arg with
  | Some v => v
  | None => d
  end.

(** ** Frames *)

Module L_frame.
Record t : Type := mk {
  width : R;
  horizontal_length : R;
  vertical_length : R;
  angle : R;
  thickness : R
}.

(** [L_frame.__init__(width, horizontal_length, vertical_length, angle,
    thickness=1.0)] *)
Definition init (width horizontal_length vertical_length angle : R)
    (thickness : option R) : t :=
  mk width horizontal_length vertical_length angle (default 1 thickness).
End L_frame.

Module U_frame.
Record t : Type := mk {
  width : R;
  horizontal_length : R;
  vertical_length_left : R;
  vertical_length_right : R;
  angle_left : R;
  angle_right : R;
  thickness : R
}.

Definition init (width horizontal_length vertical_length_left
    vertical_length_right angle_left angle_right : R)
    (thickness : option R) : t :=
  mk width horizontal_length vertical_length_left vertical_length_right
     angle_left angle_right (default 1 thickness).
End U_frame.

(** ** Holes *)

Module Hole.
(** The run-time class of a hole object with the attributes that class
    adds; [isinstance] in [add_rectangle] matches on it. *)
Inductive cls : Type :=
| Base
| IsCircle (radius : R)
| IsSlot (radius length angle : R).

(** Every hole object carries [width] and [height], set once by its
    constructor and read by [add_holes] and [add_rectangle]. *)
Record t : Type := mk {
  class_of : cls;
  width : R;
  height : R
}.

(** [Hole.__init__] *)
Definition init : t := mk Base 0 0.
End Hole.

(** [Circle.__init__(radius)] *)
Definition Circle (radius : R) : Hole.t :=
  {| Hole.class_of := Hole.IsCircle radius;
     Hole.height := radius * 2;
     Hole.width := radius * 2 |}.

(** [Slot.__init__(radius, length, angle)] of [generate_dxf.py];
    [length] is the distance between the end radii. *)
Definition Slot (radius length angle : R) : Hole.t :=
  {| Hole.class_of := Hole.IsSlot radius length angle;
     Hole.height := (length * sin angle) + (2 * radius);
     Hole.width := (length * cos angle) + (2 * radius) |}.

(** ** Rectangles *)

Module Rectangle.
Record t : Type := mk {
  width : R;
  height : R;
  thickness : R;
  offset_from_side : R;
  offset_from_bottom : R;
  holes : list Hole.t;
  holes_total_width : R
}.

(** [Rectangle.__init__(width, height, offset_from_side=0,
    offset_from_bottom=0, thickness=1)]: the third positional parameter is
    [offset_from_side]. *)
Definition init (width height : R)
    (offset_from_side offset_from_bottom thickness : option R) : t :=
  {| width := width;
     height := height;
     thickness := default 1 thickness;
     offset_from_side := default 0 offset_from_side;
     offset_from_bottom := default 0 offset_from_bottom;
     holes := [];
     holes_total_width := 0 |}.

(** [Rectangle.from_L_frame] of [generate_dxf.py].  The call
    [Rectangle(l_frame.width, height, l_frame.thickness)] is positional. *)
Definition from_L_frame (l_frame : L_frame.t) : t :=
  let height :=
    L_frame.horizontal_length l_frame
    + L_frame.vertical_length l_frame
    - (if Req_dec_T (L_frame.angle l_frame) 90 then 1 else 0.5) in
  init (L_frame.width l_frame) height
       (Some (L_frame.thickness l_frame)) None None.

(** [Rectangle.from_U_frame] *)
Definition from_U_frame (u_frame : U_frame.t) : t :=
  let height :=
    U_frame.horizontal_length u_frame
    + U_frame.vertical_length_left u_frame
    + U_frame.vertical_length_right u_frame
    - (if Req_dec_T (U_frame.angle_left u_frame) 90 then 1 else 0.5)
    - (if Req_dec_T (U_frame.angle_right u_frame) 90 then 1 else 0.5) in
  init (U_frame.width u_frame) height
       (Some (U_frame.thickness u_frame)) None None.

(** Attribute assignments on [self]. *)
Definition set_holes (self : t) (v : list Hole.t) : t :=
  mk (width self) (height self) (thickness self) (offset_from_side self)
     (offset_from_bottom self) v (holes_total_width self).

Definition set_holes_total_width (self : t) (v : R) : t :=
  mk (width self) (height self) (thickness self) (offset_from_side self)
     (offset_from_bottom self) (holes self) v.

Definition set_offset_from_side (self : t) (v : R) : t :=
  mk (width self) (height self) (thickness self) v
     (offset_from_bottom self) (holes self) (holes_total_width self).

Definition set_offset_from_bottom (self : t) (v : R) : t :=
  mk (width self) (height self) (thickness self) (offset_from_side self)
     v (holes self) (holes_total_width self).

(** [Rectangle.add_holes]: the loop body appends, accumulates, and then
    runs the two [assert] statements (as the interpreter does unless it is
    started with [-O]); a failing [assert] leaves the loop with [self] as
    mutated so far. *)
Fixpoint add_holes (self : t) (holes_arg : list Hole.t) : t * outcome :=
  match holes_arg with
  | [] => (self, Returned)
  | hole :: rest =>
      let self := set_holes self (holes self ++ [hole]) in
      let self :=
        set_holes_total_width self (holes_total_width self + Hole.width hole) in
      if Rgt_dec (width self)
                 ((2 * offset_from_side self) + holes_total_width self)
      then
        if Rge_dec (height self) (offset_from_bottom self + Hole.height hole)
        then add_holes self rest
        else (self, Raised (AssertionError "hole too large"))
      else
        (self, Raised (AssertionError "holes don't fit into the rectangle"))
  end.
End Rectangle.

(** ** The drawing *)

Module DXF.
Definition point : Type := (R * R)%type.

(** What the modelspace holds: the entities added with [add_lwpolyline]
    and [add_circle], in the order of the calls.  Layers and attributes
    belong to the drawing library and are left out. *)
Inductive entity : Type :=
| LWPolyline (points : list point) (close : bool)
| CircleEntity (center : point) (radius : R).

Definition t : Type := list entity.

(** [DXF.__init__]: an empty modelspace. *)
Definition init : t := [].

(** [ezdxf.render.forms.box(sx, sy)]: the four corners, counter-clockwise
    from the origin. *)
Definition box (sx sy : R) : list point :=
  [(0, 0); (sx, 0); (sx, sy); (0, sy)].

(** [ezdxf.render.forms.translate(vertices, vec)] *)
Definition translate (vertices : list point) (vec : point) : list point :=
  map (fun p => (fst vec + fst p, snd vec + snd p)) vertices.

Definition add_lwpolyline (msp : t) (points : list point) (close : bool) : t :=
  msp ++ [LWPolyline points close].

Definition add_circle (msp : t) (center : point) (radius : R) : t :=
  msp ++ [CircleEntity center radius].

(** The two coordinates computed at the top of the loop body of
    [add_rectangle] for the hole at index [i]. *)
Definition hole_center_x (rectangle : Rectangle.t) (start_from_x : R)
    (space_between_holes : R) (i : nat) (hole : Hole.t) : R :=
  start_from_x
  + Rectangle.offset_from_side rectangle
  + (INR i * Hole.width hole + (Hole.width hole / 2))
  + (INR i * space_between_holes).

Definition hole_center_y (rectangle : Rectangle.t) (start_from_y : R)
    (hole : Hole.t) : R :=
  start_from_y + Rectangle.offset_from_bottom rectangle
  + (Hole.height hole / 2).

(** One iteration of [for i, hole in enumerate(rectangle.holes)]. *)
Definition draw_hole (msp : t) (rectangle : Rectangle.t)
    (start_from_x start_from_y space_between_holes : R)
    (i : nat) (hole : Hole.t) : t :=
  let hole_center_x :=
    hole_center_x rectangle start_from_x space_between_holes i hole in
  let hole_center_y := hole_center_y rectangle start_from_y hole in
  match Hole.class_of hole with
  | Hole.IsCircle radius =>
      add_circle msp (hole_center_x, hole_center_y) radius
  | Hole.IsSlot radius length angle =>
      let left_x := hole_center_x - ((length / 2) * cos angle) in
      let left_y := hole_center_y + ((length / 2) * sin angle) in
      let msp := add_circle msp (left_x, left_y) radius in
      let right_x := hole_center_x + ((length / 2) * cos angle) in
      let right_y := hole_center_y - ((length / 2) * sin angle) in
      add_circle msp (right_x, right_y) radius
  | Hole.Base => msp
  end.

(** The loop over [enumerate(rectangle.holes)], from index [i] on. *)
Fixpoint draw_holes (msp : t) (rectangle : Rectangle.t)
    (start_from_x start_from_y space_between_holes : R)
    (i : nat) (holes : list Hole.t) : t :=
  match holes with
  | [] => msp
  | hole :: rest =>
      let msp :=
        draw_hole msp rectangle start_from_x start_from_y
                  space_between_holes i hole in
      draw_holes msp rectangle start_from_x start_from_y
                 space_between_holes (S i) rest
  end.

(** [DXF.add_rectangle(rectangle, start_from_x=0.0, start_from_y=0.0)] *)
Definition add_rectangle (msp : t) (rectangle : Rectangle.t)
    (start_from_x start_from_y : R) : t * outcome :=
  let rect_coordinates :=
    translate (box (Rectangle.width rectangle) (Rectangle.height rectangle))
              (start_from_x, start_from_y) in
  let msp := add_lwpolyline msp rect_coordinates true in
  let space_minus_offsets_from_side :=
    Rectangle.width rectangle - (2 * Rectangle.offset_from_side rectangle) in
  let space_remaining :=
    space_minus_offsets_from_side - Rectangle.holes_total_width rectangle in
  if (length (Rectangle.holes rectangle) <=? 1)%nat then
    (msp, Raised (ValueError "Need to have at least two holes"))
  else
    let space_between_holes :=
      space_remaining / INR (length (Rectangle.holes rectangle) - 1) in
    (draw_holes msp rectangle start_from_x start_from_y space_between_holes
                0 (Rectangle.holes rectangle),
     Returned).
End DXF.

(** ** The older script, [main.py]

    [main.py] has the same [L_frame], [Hole], [Circle], [Rectangle.__init__],
    [add_holes] and [add_rectangle] as [generate_dxf.py] and no [U_frame].
    It differs in the two definitions below. *)

Module Main_py.
(** [Slot.__init__] of [main.py]. *)
Definition Slot (radius length angle : R) : Hole.t :=
  {| Hole.class_of := Hole.IsSlot radius length angle;
     Hole.height := (length + (2 * radius)) * sin angle;
     Hole.width := (length + (2 * radius)) * cos angle |}.

(** [l_frame == 90] in [main.py] compares the frame object itself with a
    number.  [L_frame] defines no [__eq__], so the comparison falls back to
    identity and is [False] for every frame. *)
Definition frame_eq_number (l_frame : L_frame.t) (n : R) : bool := false.

(** [Rectangle.from_L_frame] of [main.py]. *)
Definition from_L_frame (l_frame : L_frame.t) : Rectangle.t :=
  let height :=
    L_frame.horizontal_length l_frame
    + L_frame.vertical_length l_frame
    - (if frame_eq_number l_frame 90 then 1 else 0.5) in
  Rectangle.init (L_frame.width l_frame) height
                 (Some (L_frame.thickness l_frame)) None None.
End Main_py.

(** What runs under [if __name__ == "__main__"] in [main.py], up to the
    call of [dxf.save]; that call hands the modelspace to the drawing
    library and is not modelled.  An exception ends the script with the
    modelspace as it then is.  In [generate_dxf.py] the same lines sit in a
    string literal and do not run. *)
Definition main_py_script : DXF.t * outcome :=
  let dxf := DXF.init in
  let l_frame := L_frame.init 200 50 10 90 None in
  let rectangle_1 := Main_py.from_L_frame l_frame in
  let rectangle_1 := Rectangle.set_offset_from_side rectangle_1 6 in
  let rectangle_1 := Rectangle.set_offset_from_bottom rectangle_1 10 in
  match Rectangle.add_holes rectangle_1 (map (fun _ => Circle 5) (seq 0 7)) with
  | (_, Raised e) => (dxf, Raised e)
  | (rectangle_1, Returned) =>
      match DXF.add_rectangle dxf rectangle_1 0 0 with
      | (dxf, Raised e) => (dxf, Raised e)
      | (dxf, Returned) =>
          let rectangle_2 := Rectangle.init 150 50 (Some 40) (Some 5) None in
          match
            Rectangle.add_holes rectangle_2
              [Main_py.Slot 5 10 45; Main_py.Slot 5 10 45; Main_py.Slot 5 10 45]
          with
          | (_, Raised e) => (dxf, Raised e)
          | (rectangle_2, Returned) =>
              DXF.add_rectangle dxf rectangle_2
                0 (Rectangle.height rectangle_2 + 20)
          end
      end
  end.

(** * Vocabulary of the properties *)

(** ** Flattening *)

(** The two-way lookup written inline in the flattening formulas: [1] at
    exactly [90], [0.5] at every other angle. *)
Definition is_bend_allowance (angle allowance : R) : Prop :=
  (angle = 90 /\ allowance = 1) \/ (angle <> 90 /\ allowance = 0.5).

(** ** Attached holes and the fit invariant *)

Definition sum_widths (hs : list Hole.t) : R :=
  fold_right (fun h acc => Hole.width h + acc) 0 hs.

(** The rectangle [r] once the holes [hs] have been appended to its list in
    their order and their widths added to its running total. *)
Definition with_appended (r : Rectangle.t) (hs : list Hole.t) : Rectangle.t :=
  Rectangle.set_holes_total_width
    (Rectangle.set_holes r (Rectangle.holes r ++ hs))
    (Rectangle.holes_total_width r + sum_widths hs).

(** The two fit conditions of the data model. *)
Definition fits_side (r : Rectangle.t) : Prop :=
  Rectangle.width r
  > 2 * Rectangle.offset_from_side r + Rectangle.holes_total_width r.

Definition fits_bottom (r : Rectangle.t) (h : Hole.t) : Prop :=
  Rectangle.height r >= Rectangle.offset_from_bottom r + Hole.height h.

Definition fit_invariant (r : Rectangle.t) : Prop :=
  fits_side r /\ Forall (fits_bottom r) (Rectangle.holes r).

(** Both conditions hold right after each single append: for every hole [h]
    of [hs], the side condition with the total accumulated up to and
    including [h], and the bottom condition for [h]. *)
Definition every_append_fits (r : Rectangle.t) (hs : list Hole.t) : Prop :=
  forall a h b, hs = a ++ h :: b ->
    fits_side (with_appended r (a ++ [h])) /\ fits_bottom r h.

(** ** Layout *)

(** The outline that [add_rectangle] draws first. *)
Definition outline (rectangle : Rectangle.t) (start_from_x start_from_y : R)
    : DXF.entity :=
  DXF.LWPolyline
    (DXF.translate
       (DXF.box (Rectangle.width rectangle) (Rectangle.height rectangle))
       (start_from_x, start_from_y))
    true.

(** The uniform gap as [add_rectangle] computes it. *)
Definition space_between_holes (rectangle : Rectangle.t) : R :=
  (Rectangle.width rectangle - 2 * Rectangle.offset_from_side rectangle
   - Rectangle.holes_total_width rectangle)
  / INR (List.length (Rectangle.holes rectangle) - 1).

(** The placement formula of the layout contract.  These two definitions
    follow the words of the contract, not the code: the gap is the free span
    over the number of holes less one, and hole [i] is centred after the
    side offset, the widths of the holes before it, half its own width and
    [i] gaps. *)
Definition spec_gap (rectangle : Rectangle.t) : R :=
  (Rectangle.width rectangle - 2 * Rectangle.offset_from_side rectangle
   - Rectangle.holes_total_width rectangle)
  / (INR (List.length (Rectangle.holes rectangle)) - 1).

Definition spec_hole_center_x (rectangle : Rectangle.t) (start_x : R)
    (i : nat) : R :=
  start_x + Rectangle.offset_from_side rectangle
  + sum_widths (firstn i (Rectangle.holes rectangle))
  + Hole.width (nth i (Rectangle.holes rectangle) Hole.init) / 2
  + INR i * spec_gap rectangle.

(** ** The bounding box of a slot *)

(** From first principles, in the words of the data model: the two end
    circles are centred at the slot's midpoint moved by plus and minus
    [(length/2) cos angle] across and [(length/2) sin angle] up, and the box
    runs from the least to the greatest coordinate that either circle
    reaches.  Coordinates are relative to the midpoint. *)
Definition spec_slot_width (radius length angle : R) : R :=
  let x1 := - ((length / 2) * cos angle) in
  let x2 := (length / 2) * cos angle in
  Rmax (x1 + radius) (x2 + radius) - Rmin (x1 - radius) (x2 - radius).

Definition spec_slot_height (radius length angle : R) : R :=
  let y1 := (length / 2) * sin angle in
  let y2 := - ((length / 2) * sin angle) in
  Rmax (y1 + radius) (y2 + radius) - Rmin (y1 - radius) (y2 - radius).

(** ** The checks of [add_holes], as the code computes them *)



(** ** Vocabulary of the further properties *)

(** [enumerate(holes)], counting from [i]. *)
Definition enumerate_from (i : nat) (hs : list Hole.t) : list (nat * Hole.t) :=
  combine (seq i (List.length hs)) hs.

(** What one iteration of the loop of [add_rectangle] adds for the hole
    [snd ih] at index [fst ih]. *)
Definition hole_entities (rectangle : Rectangle.t) (sx sy gap : R)
    (ih : nat * Hole.t) : list DXF.entity :=
  DXF.draw_hole [] rectangle sx sy gap (fst ih) (snd ih).

(** How many entities a hole of each class is drawn with. *)
Definition entities_per_hole (h : Hole.t) : nat :=
  match Hole.class_of h with
  | Hole.Base => 0
  | Hole.IsCircle _ => 1
  | Hole.IsSlot _ _ _ => 2
  end.

(** Moving a point and an entity by the vector [v]. *)
Definition shift_point (v p : DXF.point) : DXF.point :=
  (fst v + fst p, snd v + snd p).

Definition shift_entity (v : DXF.point) (e : DXF.entity) : DXF.entity :=
  match e with
  | DXF.LWPolyline points close =>
      DXF.LWPolyline (map (shift_point v) points) close
  | DXF.CircleEntity center radius =>
      DXF.CircleEntity (shift_point v center) radius
  end.

(** The sides of the box that a hole occupies once [add_rectangle] has
    computed its centre: half its width to either side, half its height up
    and down. *)
Definition left_edge (rectangle : Rectangle.t) (sx gap : R) (i : nat)
    (h : Hole.t) : R :=
  DXF.hole_center_x rectangle sx gap i h - Hole.width h / 2.

Definition right_edge (rectangle : Rectangle.t) (sx gap : R) (i : nat)
    (h : Hole.t) : R :=
  DXF.hole_center_x rectangle sx gap i h + Hole.width h / 2.

Definition bottom_edge (rectangle : Rectangle.t) (sy : R) (h : Hole.t) : R :=
  DXF.hole_center_y rectangle sy h - Hole.height h / 2.

Definition top_edge (rectangle : Rectangle.t) (sy : R) (h : Hole.t) : R :=
  DXF.hole_center_y rectangle sy h + Hole.height h / 2.

(** A U-frame seen from the other side: the two legs change places. *)
Definition mirror (u : U_frame.t) : U_frame.t :=
  U_frame.mk (U_frame.width u) (U_frame.horizontal_length u)
    (U_frame.vertical_length_right u) (U_frame.vertical_length_left u)
    (U_frame.angle_right u) (U_frame.angle_left u) (U_frame.thickness u).

(** * Properties *)

(** ** Frame flattening *)

Lemma bend_allowance_lookup (angle : R) :
  is_bend_allowance angle (if Req_dec_T angle 90 then 1 else 0.5).
Proof.
  unfold is_bend_allowance.
  destruct (Req_dec_T angle 90) as [Heq | Hne]; [left | right]; split; auto.
Qed.

(** [generate_dxf.py] flattens an L-frame as the formula says. *)
Lemma from_L_frame_height (l_frame : L_frame.t) :
  exists bend_allowance : R,
    is_bend_allowance (L_frame.angle l_frame) bend_allowance /\
    Rectangle.height (Rectangle.from_L_frame l_frame) =
      L_frame.horizontal_length l_frame + L_frame.vertical_length l_frame
      - bend_allowance.
Proof.
  eexists; split; [apply bend_allowance_lookup | reflexivity].
Qed.

(** C2, on [main.py]: the comparison [l_frame == 90] never holds, so the
    flattened height always loses [0.5], also for a frame bent at [90]; on
    the frame of the script's own demo the height is [59.5] where the formula
    with a bend allowance of [1] gives [59]. *)
Theorem main_py_from_L_frame_always_half :
  (forall l_frame : L_frame.t,
     Rectangle.height (Main_py.from_L_frame l_frame) =
       L_frame.horizontal_length l_frame + L_frame.vertical_length l_frame
       - 0.5) /\
  (let l_frame := L_frame.init 200 50 10 90 None in
   L_frame.angle l_frame = 90 /\
   Rectangle.height (Main_py.from_L_frame l_frame) = 59.5 /\
   Rectangle.height (Main_py.from_L_frame l_frame) <> 50 + 10 - 1 /\
   Rectangle.height (Rectangle.from_L_frame l_frame) = 50 + 10 - 1).
Proof.
  split.
  - intros l_frame. reflexivity.
  - cbn. repeat split; try lra.
    destruct (Req_dec_T 90 90) as [_ | Hne]; [lra | contradiction Hne; reflexivity].
Qed.

(** C3: both flattening functions call [Rectangle(width, height, thickness)]
    positionally, and the third parameter of the constructor is
    [offset_from_side].  So the width is the frame's and no hole is attached,
    but the frame's thickness becomes the side offset and the rectangle's
    thickness stays at its default [1].  For a frame of thickness [2] the
    rectangle has thickness [1] and side offset [2]. *)
Theorem from_frame_thickness_becomes_offset_from_side :
  (forall l_frame : L_frame.t,
     let r := Rectangle.from_L_frame l_frame in
     Rectangle.width r = L_frame.width l_frame /\
     Rectangle.thickness r = 1 /\
     Rectangle.offset_from_side r = L_frame.thickness l_frame /\
     Rectangle.offset_from_bottom r = 0 /\
     Rectangle.holes r = [] /\
     Rectangle.holes_total_width r = 0) /\
  (forall u_frame : U_frame.t,
     let r := Rectangle.from_U_frame u_frame in
     Rectangle.width r = U_frame.width u_frame /\
     Rectangle.thickness r = 1 /\
     Rectangle.offset_from_side r = U_frame.thickness u_frame /\
     Rectangle.offset_from_bottom r = 0 /\
     Rectangle.holes r = [] /\
     Rectangle.holes_total_width r = 0) /\
  (forall l_frame : L_frame.t,
     let r := Main_py.from_L_frame l_frame in
     Rectangle.width r = L_frame.width l_frame /\
     Rectangle.thickness r = 1 /\
     Rectangle.offset_from_side r = L_frame.thickness l_frame /\
     Rectangle.offset_from_bottom r = 0 /\
     Rectangle.holes r = []) /\
  (let r := Rectangle.from_L_frame (L_frame.init 200 50 10 90 (Some 2)) in
   Rectangle.thickness r = 1 /\ Rectangle.thickness r <> 2 /\
   Rectangle.offset_from_side r = 2 /\ Rectangle.offset_from_side r <> 0).
Proof.
  repeat split; cbn; lra.
Qed.

(** C7: a U-frame flattens to the sum of its three lengths less one bend
    allowance per side, each looked up from that side's own angle; with
    lengths [50], [10], [10] and angles [90] and [45] the height is [68.5]. *)
Theorem from_U_frame_height :
  (forall u_frame : U_frame.t,
     exists bend_allowance_left bend_allowance_right : R,
       is_bend_allowance (U_frame.angle_left u_frame) bend_allowance_left /\
       is_bend_allowance (U_frame.angle_right u_frame) bend_allowance_right /\
       Rectangle.height (Rectangle.from_U_frame u_frame) =
         U_frame.horizontal_length u_frame
         + U_frame.vertical_length_left u_frame
         + U_frame.vertical_length_right u_frame
         - bend_allowance_left - bend_allowance_right) /\
  (forall (width : R) (thickness : option R),
     Rectangle.height
       (Rectangle.from_U_frame (U_frame.init width 50 10 10 90 45 thickness))
     = 68.5).
Proof.
  split.
  - intros u_frame. do 2 eexists.
    split; [apply bend_allowance_lookup |].
    split; [apply bend_allowance_lookup |].
    reflexivity.
  - intros width thickness. cbn.
    destruct (Req_dec_T 90 90) as [_ | Hne]; [| contradiction Hne; reflexivity].
    destruct (Req_dec_T 45 90) as [Heq | _]; lra.
Qed.

(** ** Attaching holes *)

Lemma sum_widths_app (a b : list Hole.t) :
  sum_widths (a ++ b) = sum_widths a + sum_widths b.
Proof.
  unfold sum_widths.
  induction a as [| x a IH]; cbn; [| rewrite IH]; lra.
Qed.

Lemma with_appended_nil (r : Rectangle.t) : with_appended r [] = r.
Proof.
  destruct r; unfold with_appended; cbn.
  rewrite app_nil_r, Rplus_0_r. reflexivity.
Qed.

Lemma with_appended_app (r : Rectangle.t) (a b : list Hole.t) :
  with_appended (with_appended r a) b = with_appended r (a ++ b).
Proof.
  destruct r; unfold with_appended; cbn -[sum_widths].
  rewrite sum_widths_app, app_assoc, Rplus_assoc. reflexivity.
Qed.

(** The state of [self] after the two assignments of the loop body. *)
Lemma add_holes_cons (r : Rectangle.t) (h : Hole.t) (rest : list Hole.t) :
  Rectangle.add_holes r (h :: rest) =
    let r1 := with_appended r [h] in
    if Rgt_dec (Rectangle.width r1)
         (2 * Rectangle.offset_from_side r1 + Rectangle.holes_total_width r1)
    then
      if Rge_dec (Rectangle.height r1)
           (Rectangle.offset_from_bottom r1 + Hole.height h)
      then Rectangle.add_holes r1 rest
      else (r1, Raised (AssertionError "hole too large"))
    else (r1, Raised (AssertionError "holes don't fit into the rectangle")).
Proof.
  assert (E : Rectangle.set_holes_total_width
                (Rectangle.set_holes r (Rectangle.holes r ++ [h]))
                (Rectangle.holes_total_width
                   (Rectangle.set_holes r (Rectangle.holes r ++ [h]))
                 + Hole.width h)
              = with_appended r [h]).
  { destruct r; unfold with_appended; cbn. rewrite Rplus_0_r. reflexivity. }
  cbn [Rectangle.add_holes]. rewrite E. reflexivity.
Qed.

Lemma every_append_fits_nil (r : Rectangle.t) : every_append_fits r [].
Proof.
  intros a h b H. destruct a; discriminate H.
Qed.

Lemma every_append_fits_cons (r : Rectangle.t) (x : Hole.t) (l : list Hole.t) :
  every_append_fits r (x :: l) <->
  fits_side (with_appended r [x]) /\ fits_bottom r x /\
  every_append_fits (with_appended r [x]) l.
Proof.
  split.
  - intros H. destruct (H [] x l eq_refl) as [Hs Hb].
    split; [exact Hs | split; [exact Hb |]].
    intros a h b E. subst l.
    destruct (H (x :: a) h b eq_refl) as [Hs' Hb'].
    rewrite with_appended_app. split; [exact Hs' | exact Hb'].
  - intros (Hs & Hb & Hl) a h b E.
    destruct a as [| y a]; cbn in E; injection E as -> ->.
    + split; assumption.
    + destruct (Hl a h b eq_refl) as [Hs' Hb'].
      rewrite with_appended_app in Hs'. split; [exact Hs' | exact Hb'].
Qed.

(** Every run of [add_holes] is one of two: all appends fit and it returns
    with all holes attached, or it raises at the first append that does not
    fit, with the holes up to and including that one attached. *)
Lemma add_holes_cases (hs : list Hole.t) :
  forall r : Rectangle.t,
    (every_append_fits r hs /\
     Rectangle.add_holes r hs = (with_appended r hs, Returned))
    \/
    (exists a h b msg,
       hs = a ++ h :: b /\
       every_append_fits r a /\
       ~ (fits_side (with_appended r (a ++ [h])) /\ fits_bottom r h) /\
       Rectangle.add_holes r hs =
         (with_appended r (a ++ [h]), Raised (AssertionError msg))).
Proof.
  induction hs as [| x l IH]; intros r.
  - left. split; [apply every_append_fits_nil |].
    cbn. rewrite with_appended_nil. reflexivity.
  - rewrite add_holes_cons. cbv zeta.
    destruct (Rgt_dec _ _) as [Hs | Hs].
    + destruct (Rge_dec _ _) as [Hb | Hb].
      * destruct (IH (with_appended r [x]))
          as [[Hl E] | (a & h & b & msg & El & Ha & Hn & E)].
        -- left. split.
           ++ apply every_append_fits_cons.
              split; [exact Hs | split; [exact Hb | exact Hl]].
           ++ rewrite E, with_appended_app. reflexivity.
        -- right. exists (x :: a), h, b, msg. subst l.
           rewrite with_appended_app in Hn, E.
           split; [reflexivity |].
           split.
           { apply every_append_fits_cons.
             split; [exact Hs | split; [exact Hb | exact Ha]]. }
           split; [exact Hn | exact E].
      * right. exists [], x, l, "hole too large"%string.
        split; [reflexivity |].
        split; [apply every_append_fits_nil |].
        split; [| reflexivity].
        intros [_ Hb']. apply Hb. exact Hb'.
    + right. exists [], x, l, "holes don't fit into the rectangle"%string.
      split; [reflexivity |].
      split; [apply every_append_fits_nil |].
      split; [| reflexivity].
      intros [Hs' _]. apply Hs. exact Hs'.
Qed.


(** Runs one iteration of [add_holes] on concrete numbers: decides the two
    assertions by linear arithmetic. *)
Ltac add_holes_step :=
  rewrite add_holes_cons; cbv zeta;
  let H := fresh "H" in
  destruct (Rgt_dec _ _) as [H | H];
  [ first
      [ solve [exfalso; cbn in H; lra]
      | clear H;
        destruct (Rge_dec _ _) as [H | H];
        [ first [solve [exfalso; cbn in H; lra] | clear H]
        | try solve [exfalso; apply H; cbn; lra] ] ]
  | try solve [exfalso; apply H; cbn; lra] ].








(** C9: when [add_holes] raises, the rectangle has been changed and stays
    so: its list holds every supplied hole up to and including the one whose
    check failed, its running total includes that hole's width, and the
    rectangle no longer satisfies the fit invariant. *)
Theorem add_holes_raise_keeps_mutation
    (r r' : Rectangle.t) (hs : list Hole.t) (e : exn) :
  Rectangle.add_holes r hs = (r', Raised e) ->
  exists a h b,
    hs = a ++ h :: b /\
    every_append_fits r a /\
    r' = with_appended r (a ++ [h]) /\
    Rectangle.holes r' = Rectangle.holes r ++ a ++ [h] /\
    Rectangle.holes_total_width r' =
      Rectangle.holes_total_width r + sum_widths a + Hole.width h /\
    r' <> r /\
    ~ fit_invariant r'.
Proof.
  intros E.
  destruct (add_holes_cases hs r)
    as [[_ E'] | (a & h & b & msg & -> & Ha & Hn & E')];
    rewrite E' in E; [discriminate E |].
  injection E as <- _.
  exists a, h, b.
  split; [reflexivity |].
  split; [exact Ha |].
  split; [reflexivity |].
  split; [reflexivity |].
  split; [cbn -[sum_widths]; rewrite sum_widths_app; cbn; lra |].
  split.
  - intros Heq. apply (f_equal Rectangle.holes) in Heq.
    apply (f_equal (@List.length Hole.t)) in Heq. cbn in Heq.
    rewrite !length_app in Heq. cbn in Heq. lia.
  - intros [Hs Hb]. apply Hn. split; [exact Hs |].
    rewrite Forall_forall in Hb.
    apply (Hb h). cbn. apply in_or_app. right.
    apply in_or_app. right. left. reflexivity.
Qed.

Lemma add_holes_raise_keeps_mutation_witness :
  let r := Rectangle.init 10 10 None None None in
  exists a h b,
    [Circle 1; Circle 5; Circle 1] = a ++ h :: b /\
    every_append_fits r a /\
    with_appended r [Circle 1; Circle 5] = with_appended r (a ++ [h]) /\
    Rectangle.holes (with_appended r [Circle 1; Circle 5]) =
      Rectangle.holes r ++ a ++ [h] /\
    Rectangle.holes_total_width (with_appended r [Circle 1; Circle 5]) =
      Rectangle.holes_total_width r + sum_widths a + Hole.width h /\
    with_appended r [Circle 1; Circle 5] <> r /\
    ~ fit_invariant (with_appended r [Circle 1; Circle 5]).
Proof.
  intros r.
  apply (add_holes_raise_keeps_mutation r _ [Circle 1; Circle 5; Circle 1]
           (AssertionError "holes don't fit into the rectangle")).
  add_holes_step. add_holes_step.
  rewrite with_appended_app. reflexivity.
Defined.

(** ** Layout *)

Lemma add_rectangle_few_holes (msp : DXF.t) (rectangle : Rectangle.t)
    (start_from_x start_from_y : R) :
  (List.length (Rectangle.holes rectangle) <= 1)%nat ->
  DXF.add_rectangle msp rectangle start_from_x start_from_y =
    (msp ++ [outline rectangle start_from_x start_from_y],
     Raised (ValueError "Need to have at least two holes")).
Proof.
  intros Hlen. unfold DXF.add_rectangle. cbv zeta.
  destruct (Nat.leb_spec (List.length (Rectangle.holes rectangle)) 1)
    as [_ | Hgt]; [reflexivity | lia].
Qed.

Lemma add_rectangle_enough_holes (msp : DXF.t) (rectangle : Rectangle.t)
    (start_from_x start_from_y : R) :
  (2 <= List.length (Rectangle.holes rectangle))%nat ->
  DXF.add_rectangle msp rectangle start_from_x start_from_y =
    (DXF.draw_holes (msp ++ [outline rectangle start_from_x start_from_y])
       rectangle start_from_x start_from_y (space_between_holes rectangle)
       0 (Rectangle.holes rectangle),
     Returned).
Proof.
  intros Hlen. unfold DXF.add_rectangle. cbv zeta.
  destruct (Nat.leb_spec (List.length (Rectangle.holes rectangle)) 1)
    as [Hle | _]; [lia | reflexivity].
Qed.

(** The loop only ever adds entities at the end of the modelspace. *)
Lemma draw_hole_extends (msp : DXF.t) (rectangle : Rectangle.t)
    (sx sy gap : R) (i : nat) (hole : Hole.t) :
  DXF.draw_hole msp rectangle sx sy gap i hole =
    msp ++ DXF.draw_hole [] rectangle sx sy gap i hole.
Proof.
  unfold DXF.draw_hole, DXF.add_circle.
  destruct (Hole.class_of hole); cbn.
  - rewrite app_nil_r. reflexivity.
  - reflexivity.
  - rewrite <- app_assoc. reflexivity.
Qed.

Lemma draw_holes_extends (rectangle : Rectangle.t) (sx sy gap : R)
    (holes : list Hole.t) :
  forall (msp : DXF.t) (i : nat),
    DXF.draw_holes msp rectangle sx sy gap i holes =
      msp ++ DXF.draw_holes [] rectangle sx sy gap i holes.
Proof.
  induction holes as [| hole rest IH]; intros msp i; cbn.
  - rewrite app_nil_r. reflexivity.
  - rewrite IH, (IH (DXF.draw_hole [] _ _ _ _ _ _)), draw_hole_extends.
    rewrite app_assoc. reflexivity.
Qed.

Lemma draw_holes_app (rectangle : Rectangle.t) (sx sy gap : R)
    (a b : list Hole.t) :
  forall (msp : DXF.t) (i : nat),
    DXF.draw_holes msp rectangle sx sy gap i (a ++ b) =
      DXF.draw_holes (DXF.draw_holes msp rectangle sx sy gap i a)
        rectangle sx sy gap (i + List.length a) b.
Proof.
  induction a as [| hole a IH]; intros msp i; cbn.
  - rewrite Nat.add_0_r. reflexivity.
  - rewrite IH, Nat.add_succ_comm. reflexivity.
Qed.

(** C5: with no hole or one hole attached [add_rectangle] raises the
    [ValueError]; with two or more it returns and raises nothing. *)
Theorem add_rectangle_needs_two_holes (msp : DXF.t) (rectangle : Rectangle.t)
    (start_from_x start_from_y : R) :
  ((List.length (Rectangle.holes rectangle) <= 1)%nat ->
   snd (DXF.add_rectangle msp rectangle start_from_x start_from_y) =
     Raised (ValueError "Need to have at least two holes")) /\
  ((2 <= List.length (Rectangle.holes rectangle))%nat ->
   snd (DXF.add_rectangle msp rectangle start_from_x start_from_y) =
     Returned).
Proof.
  split; intros Hlen.
  - rewrite add_rectangle_few_holes by exact Hlen. reflexivity.
  - rewrite add_rectangle_enough_holes by exact Hlen. reflexivity.
Qed.

Lemma add_rectangle_needs_two_holes_witness :
  snd (DXF.add_rectangle DXF.init
         (with_appended (Rectangle.init 200 59 (Some 6) (Some 10) None)
            [Circle 5])
         0 0)
    = Raised (ValueError "Need to have at least two holes") /\
  snd (DXF.add_rectangle DXF.init
         (with_appended (Rectangle.init 200 59 (Some 6) (Some 10) None)
            [Circle 5; Circle 5])
         0 0)
    = Returned.
Proof.
  split.
  - apply (proj1 (add_rectangle_needs_two_holes _ _ _ _)). cbn. lia.
  - apply (proj2 (add_rectangle_needs_two_holes _ _ _ _)). cbn. lia.
Defined.

(** C10: the outline is added to the modelspace before the number of holes
    is looked at, so a call that raises for want of holes has already drawn
    the outline: the modelspace it leaves behind is the old one followed by
    the outline. *)
Theorem add_rectangle_outline_before_hole_count
    (msp : DXF.t) (rectangle : Rectangle.t) (start_from_x start_from_y : R) :
  (List.length (Rectangle.holes rectangle) <= 1)%nat ->
  DXF.add_rectangle msp rectangle start_from_x start_from_y =
    (msp ++
       [DXF.LWPolyline
          [(start_from_x + 0, start_from_y + 0);
           (start_from_x + Rectangle.width rectangle, start_from_y + 0);
           (start_from_x + Rectangle.width rectangle,
            start_from_y + Rectangle.height rectangle);
           (start_from_x + 0, start_from_y + Rectangle.height rectangle)]
          true],
     Raised (ValueError "Need to have at least two holes")) /\
  fst (DXF.add_rectangle msp rectangle start_from_x start_from_y) <> msp.
Proof.
  intros Hlen. rewrite add_rectangle_few_holes by exact Hlen.
  split; [reflexivity |].
  cbn [fst]. intros Heq.
  apply (f_equal (@List.length DXF.entity)) in Heq.
  rewrite length_app in Heq. cbn in Heq. lia.
Qed.

Lemma add_rectangle_outline_before_hole_count_witness :
  let rectangle :=
    with_appended (Rectangle.init 200 59 (Some 6) (Some 10) None) [Circle 5] in
  DXF.add_rectangle DXF.init rectangle 0 0 =
    (DXF.init ++
       [DXF.LWPolyline
          [(0 + 0, 0 + 0);
           (0 + Rectangle.width rectangle, 0 + 0);
           (0 + Rectangle.width rectangle, 0 + Rectangle.height rectangle);
           (0 + 0, 0 + Rectangle.height rectangle)]
          true],
     Raised (ValueError "Need to have at least two holes")) /\
  fst (DXF.add_rectangle DXF.init rectangle 0 0) <> DXF.init.
Proof.
  intros rectangle.
  apply (add_rectangle_outline_before_hole_count DXF.init rectangle 0 0).
  cbn. lia.
Defined.

(** C8: a slot at position [length pre] of the attached holes contributes
    exactly two circle entities, one after the other, between what the
    holes before it and the holes after it contribute: both of the slot's
    radius, the first at the computed centre moved by [-(length/2) cos angle]
    and [+(length/2) sin angle], the second by [+(length/2) cos angle] and
    [-(length/2) sin angle].  The computed centre is the midpoint of the two,
    and nothing else, in particular no connecting line, is drawn for it. *)
Theorem add_rectangle_slot_two_circles
    (msp : DXF.t) (rectangle : Rectangle.t) (start_from_x start_from_y : R)
    (pre post : list Hole.t) (hole : Hole.t)
    (slot_radius slot_length slot_angle : R) :
  Rectangle.holes rectangle = pre ++ hole :: post ->
  (2 <= List.length (Rectangle.holes rectangle))%nat ->
  Hole.class_of hole = Hole.IsSlot slot_radius slot_length slot_angle ->
  let gap := space_between_holes rectangle in
  let i := List.length pre in
  let cx := DXF.hole_center_x rectangle start_from_x gap i hole in
  let cy := DXF.hole_center_y rectangle start_from_y hole in
  let left_end :=
    (cx - (slot_length / 2) * cos slot_angle,
     cy + (slot_length / 2) * sin slot_angle) in
  let right_end :=
    (cx + (slot_length / 2) * cos slot_angle,
     cy - (slot_length / 2) * sin slot_angle) in
  DXF.add_rectangle msp rectangle start_from_x start_from_y =
    (DXF.draw_holes (msp ++ [outline rectangle start_from_x start_from_y])
       rectangle start_from_x start_from_y gap 0 pre
     ++ [DXF.CircleEntity left_end slot_radius;
         DXF.CircleEntity right_end slot_radius]
     ++ DXF.draw_holes [] rectangle start_from_x start_from_y gap (S i) post,
     Returned) /\
  (fst left_end + fst right_end) / 2 = cx /\
  (snd left_end + snd right_end) / 2 = cy.
Proof.
  intros Hholes Hlen Hcls gap i cx cy left_end right_end.
  split; [| split; cbn; lra].
  rewrite add_rectangle_enough_holes by exact Hlen.
  fold gap. rewrite Hholes, draw_holes_app. cbn [DXF.draw_holes].
  rewrite draw_holes_extends, draw_hole_extends.
  unfold DXF.draw_hole at 1. rewrite Hcls. cbn [Nat.add].
  unfold DXF.add_circle. cbn [app].
  fold i cx cy. fold left_end right_end.
  rewrite <- app_assoc. reflexivity.
Qed.

Lemma add_rectangle_slot_two_circles_witness :
  let rectangle :=
    with_appended (Rectangle.init 150 50 (Some 40) (Some 5) None)
      [Circle 5; Slot 5 10 0; Circle 5] in
  let gap := space_between_holes rectangle in
  let cx := DXF.hole_center_x rectangle 0 gap 1 (Slot 5 10 0) in
  let cy := DXF.hole_center_y rectangle 0 (Slot 5 10 0) in
  let left_end := (cx - (10 / 2) * cos 0, cy + (10 / 2) * sin 0) in
  let right_end := (cx + (10 / 2) * cos 0, cy - (10 / 2) * sin 0) in
  DXF.add_rectangle DXF.init rectangle 0 0 =
    (DXF.draw_holes (DXF.init ++ [outline rectangle 0 0])
       rectangle 0 0 gap 0 [Circle 5]
     ++ [DXF.CircleEntity left_end 5; DXF.CircleEntity right_end 5]
     ++ DXF.draw_holes [] rectangle 0 0 gap 2 [Circle 5],
     Returned) /\
  (fst left_end + fst right_end) / 2 = cx /\
  (snd left_end + snd right_end) / 2 = cy.
Proof.
  intros rectangle.
  apply (add_rectangle_slot_two_circles DXF.init rectangle 0 0
           [Circle 5] [Circle 5] (Slot 5 10 0) 5 10 0).
  - reflexivity.
  - cbn. lia.
  - reflexivity.
Defined.

(** *** The placement formula of the layout contract *)

Lemma space_between_holes_spec_gap (rectangle : Rectangle.t) :
  (1 <= List.length (Rectangle.holes rectangle))%nat ->
  space_between_holes rectangle = spec_gap rectangle.
Proof.
  intros Hlen. unfold space_between_holes, spec_gap.
  rewrite minus_INR by exact Hlen. reflexivity.
Qed.

Lemma sum_widths_uniform (w : R) (hs : list Hole.t) :
  Forall (fun h => Hole.width h = w) hs ->
  forall i, (i <= List.length hs)%nat ->
    sum_widths (firstn i hs) = INR i * w.
Proof.
  induction 1 as [| h hs Hh _ IH]; intros i Hi.
  - cbn in Hi. replace i with 0%nat by lia. cbn. lra.
  - destruct i as [| i].
    + cbn. lra.
    + cbn [firstn]. cbn in Hi.
      change (sum_widths (h :: firstn i hs))
        with (Hole.width h + sum_widths (firstn i hs)).
      rewrite IH by lia. rewrite Hh, S_INR. lra.
Qed.

(** When all attached holes have one and the same width, the centre that
    [add_rectangle] computes for hole [i] is the one of the contract. *)
Lemma hole_center_x_uniform (rectangle : Rectangle.t) (start_from_x w : R)
    (i : nat) :
  Forall (fun h => Hole.width h = w) (Rectangle.holes rectangle) ->
  (i < List.length (Rectangle.holes rectangle))%nat ->
  DXF.hole_center_x rectangle start_from_x (space_between_holes rectangle) i
    (nth i (Rectangle.holes rectangle) Hole.init)
  = spec_hole_center_x rectangle start_from_x i.
Proof.
  intros Hw Hi. unfold DXF.hole_center_x, spec_hole_center_x.
  rewrite space_between_holes_spec_gap by lia.
  rewrite (sum_widths_uniform w) by (assumption || lia).
  rewrite Forall_forall in Hw.
  rewrite (Hw (nth i (Rectangle.holes rectangle) Hole.init))
    by (apply nth_In; exact Hi).
  lra.
Qed.

(** C1, evaluated where it fails: a plate [30] wide with circles of radius
    [1], [2] and [3] attached by [add_holes], which accepts them.  The loop
    of [add_rectangle] advances by [i * hole.width], the width of the
    current hole taken [i] times, not by the widths of the holes before it.
    The circles are centred at x = [1], [15], [33], where the contract puts
    them at [1], [13], [27]; the gaps between their edges are [11] and [13],
    not equal; and the last circle reaches to [36], past the plate's edge at
    [30].  The y-centres are [1], [2], [3], each its own hole's radius, as
    the contract says. *)
Theorem add_rectangle_mixed_widths_misplaced :
  let plate := with_appended (Rectangle.init 30 10 None None None)
                 [Circle 1; Circle 2; Circle 3] in
  Rectangle.add_holes (Rectangle.init 30 10 None None None)
    [Circle 1; Circle 2; Circle 3] = (plate, Returned) /\
  fit_invariant plate /\
  DXF.add_rectangle DXF.init plate 0 0 =
    ([outline plate 0 0;
      DXF.CircleEntity (1, 1) 1;
      DXF.CircleEntity (15, 2) 2;
      DXF.CircleEntity (33, 3) 3],
     Returned) /\
  spec_hole_center_x plate 0 0 = 1 /\
  spec_hole_center_x plate 0 1 = 13 /\
  spec_hole_center_x plate 0 2 = 27 /\
  (15 - Hole.width (Circle 2) / 2) - (1 + Hole.width (Circle 1) / 2) = 11 /\
  (33 - Hole.width (Circle 3) / 2) - (15 + Hole.width (Circle 2) / 2) = 13 /\
  33 + Hole.width (Circle 3) / 2 > Rectangle.width plate.
Proof.
  intros plate.
  split.
  { do 3 add_holes_step. cbn [Rectangle.add_holes].
    rewrite !with_appended_app. reflexivity. }
  split.
  { split.
    - unfold fits_side. cbn. lra.
    - repeat constructor; unfold fits_bottom; cbn; lra. }
  split.
  { rewrite add_rectangle_enough_holes by (cbn; lia).
    unfold space_between_holes, DXF.init.
    cbn [plate with_appended Rectangle.holes Rectangle.set_holes
         Rectangle.set_holes_total_width Rectangle.init app List.length
         Nat.sub DXF.draw_holes].
    unfold DXF.draw_hole, DXF.hole_center_x, DXF.hole_center_y, DXF.add_circle.
    cbn. repeat f_equal; lra. }
  unfold spec_hole_center_x, spec_gap. cbn.
  repeat split; lra.
Qed.

(** ** The bounding box of a slot *)

Lemma spec_slot_box (radius length angle : R) :
  0 <= length ->
  spec_slot_width radius length angle
    = length * Rabs (cos angle) + 2 * radius /\
  spec_slot_height radius length angle
    = length * Rabs (sin angle) + 2 * radius.
Proof.
  intros Hlen. unfold spec_slot_width, spec_slot_height. cbv zeta.
  unfold Rmax, Rmin, Rabs.
  split.
  - destruct (Rcase_abs (cos angle)); repeat destruct (Rle_dec _ _); nra.
  - destruct (Rcase_abs (sin angle)); repeat destruct (Rle_dec _ _); nra.
Qed.

(** For a tilt whose sine and cosine are not negative, [generate_dxf.py]
    gives a slot its bounding box. *)
Lemma Slot_box_first_quadrant (radius length angle : R) :
  0 <= length -> 0 <= cos angle -> 0 <= sin angle ->
  Hole.width (Slot radius length angle) = spec_slot_width radius length angle /\
  Hole.height (Slot radius length angle) = spec_slot_height radius length angle.
Proof.
  intros Hlen Hc Hs.
  destruct (spec_slot_box radius length angle Hlen) as [-> ->].
  rewrite !Rabs_right by lra. cbn. split; lra.
Qed.

(** C6, evaluated where it fails.  [generate_dxf.py] adds
    [length * cos angle] and [length * sin angle] with their signs: a slot
    of radius [1] and length [2] lying flat the other way round
    ([angle = PI]) gets width [0], and one standing on end downwards
    ([angle = -PI/2]) gets height [0], where the bounding box is [4] wide,
    respectively [4] high.  [main.py] multiplies the whole of
    [length + 2 * radius] by the sine and cosine: the same slot lying flat
    ([angle = 0]) gets height [0] where the bounding box is [2] high. *)
Theorem Slot_size_is_not_bounding_box :
  (Hole.width (Slot 1 2 PI) = 0 /\
   2 * Rabs (cos PI) + 2 * 1 = 4 /\
   spec_slot_width 1 2 PI = 4) /\
  (Hole.height (Slot 1 2 (- (PI / 2))) = 0 /\
   2 * Rabs (sin (- (PI / 2))) + 2 * 1 = 4 /\
   spec_slot_height 1 2 (- (PI / 2)) = 4) /\
  (Hole.height (Main_py.Slot 1 2 0) = 0 /\
   2 * Rabs (sin 0) + 2 * 1 = 2 /\
   spec_slot_height 1 2 0 = 2).
Proof.
  assert (H2 : 0 <= 2) by lra.
  split; [| split].
  - destruct (spec_slot_box 1 2 PI H2) as [-> _].
    cbn. rewrite cos_PI, Rabs_left by lra. repeat split; lra.
  - destruct (spec_slot_box 1 2 (- (PI / 2)) H2) as [_ ->].
    cbn. rewrite sin_neg, sin_PI2, Rabs_left by lra. repeat split; lra.
  - destruct (spec_slot_box 1 2 0 H2) as [_ ->].
    cbn. rewrite sin_0, Rabs_R0. repeat split; lra.
Qed.

(** ** The demo plate of the scripts

    The L-frame [200] wide with legs [50] and [10] bent at [90], side offset
    [6], bottom offset [10], seven circles of radius [5]. *)

Lemma demo_frame_flattened :
  Rectangle.from_L_frame (L_frame.init 200 50 10 90 None)
  = Rectangle.mk 200 59 1 1 0 [] 0.
Proof.
  unfold Rectangle.from_L_frame, Rectangle.init. cbn.
  destruct (Req_dec_T 90 90) as [_ | Hne]; [| contradiction Hne; reflexivity].
  f_equal. lra.
Qed.

Example demo_plate :
  let plate0 :=
    Rectangle.set_offset_from_bottom
      (Rectangle.set_offset_from_side
         (Rectangle.from_L_frame (L_frame.init 200 50 10 90 None)) 6) 10 in
  let holes := repeat (Circle 5) 7 in
  let plate := with_appended plate0 holes in
  Rectangle.add_holes plate0 holes = (plate, Returned) /\
  Rectangle.holes_total_width plate = 70 /\
  space_between_holes plate = 59 / 3 /\
  forall i, (i < 7)%nat ->
    DXF.hole_center_x plate 0 (space_between_holes plate) i
      (nth i (Rectangle.holes plate) Hole.init)
    = spec_hole_center_x plate 0 i /\
    DXF.hole_center_y plate 0 (nth i (Rectangle.holes plate) Hole.init) = 15.
Proof.
  rewrite demo_frame_flattened. cbn zeta.
  split.
  { cbn [repeat]. do 7 add_holes_step. cbn [Rectangle.add_holes].
    rewrite !with_appended_app. reflexivity. }
  split; [cbn; lra |].
  split; [unfold space_between_holes; cbn; lra |].
  intros i Hi. split.
  - apply (hole_center_x_uniform _ _ (5 * 2)).
    + cbn. repeat constructor.
    + cbn. exact Hi.
  - unfold DXF.hole_center_y.
    do 7 (destruct i as [| i]; [cbn; lra |]). lia.
Qed.

(** * Further properties *)

(** ** [add_holes] beyond its contract *)

Lemma add_holes_returns_iff (r : Rectangle.t) (hs : list Hole.t) :
  snd (Rectangle.add_holes r hs) = Returned <-> every_append_fits r hs.
Proof.
  destruct (add_holes_cases hs r)
    as [[Hf E] | (a & h & b & msg & -> & Ha & Hn & E)]; rewrite E; cbn.
  - tauto.
  - split; [discriminate |].
    intros Hf. exfalso. apply Hn. exact (Hf a h b eq_refl).
Qed.

(** Whatever the outcome, the rectangle that [add_holes] leaves behind is
    the old one with a front part of the supplied holes appended. *)
Lemma add_holes_state (r : Rectangle.t) (hs : list Hole.t) :
  exists added rest,
    hs = added ++ rest /\
    fst (Rectangle.add_holes r hs) = with_appended r added.
Proof.
  destruct (add_holes_cases hs r)
    as [[_ E] | (a & h & b & msg & -> & _ & _ & E)]; rewrite E; cbn [fst].
  - exists hs, []. rewrite app_nil_r. split; reflexivity.
  - exists (a ++ [h]), b. rewrite <- app_assoc. split; reflexivity.
Qed.

(** X1: Two calls of [add_holes] in a row do what one call with the two lists
    joined does; if the first call raises, the second list is never
    looked at. *)
Theorem add_holes_app (a b : list Hole.t) :
  forall r : Rectangle.t,
    Rectangle.add_holes r (a ++ b) =
      match Rectangle.add_holes r a with
      | (r', Returned) => Rectangle.add_holes r' b
      | (r', Raised e) => (r', Raised e)
      end.
Proof.
  induction a as [| x a IH]; intros r.
  - reflexivity.
  - rewrite <- app_comm_cons, !add_holes_cons. cbv zeta.
    destruct (Rgt_dec _ _); [| reflexivity].
    destruct (Rge_dec _ _); [| reflexivity].
    apply IH.
Qed.

(** X2: [add_holes] only ever appends: whatever the outcome, the dimensions,
    the thickness and the two offsets are untouched, the holes already
    attached stay in front in their order, what is added behind them is a
    front part of the supplied list, and the running total has grown by
    exactly the widths of what was added. *)
Theorem add_holes_only_appends (r : Rectangle.t) (hs : list Hole.t) :
  let r' := fst (Rectangle.add_holes r hs) in
  Rectangle.width r' = Rectangle.width r /\
  Rectangle.height r' = Rectangle.height r /\
  Rectangle.thickness r' = Rectangle.thickness r /\
  Rectangle.offset_from_side r' = Rectangle.offset_from_side r /\
  Rectangle.offset_from_bottom r' = Rectangle.offset_from_bottom r /\
  exists added rest,
    hs = added ++ rest /\
    Rectangle.holes r' = Rectangle.holes r ++ added /\
    Rectangle.holes_total_width r' =
      Rectangle.holes_total_width r + sum_widths added.
Proof.
  destruct (add_holes_state r hs) as (added & rest & Ehs & E).
  cbv zeta. rewrite E.
  repeat (split; [reflexivity |]).
  exists added, rest. repeat split. exact Ehs.
Qed.

(** X3: The running total stays the sum of the widths of the attached holes:
    if it is so before [add_holes], it is so afterwards, also when the call
    raises. *)
Theorem add_holes_total_is_sum (r : Rectangle.t) (hs : list Hole.t) :
  Rectangle.holes_total_width r = sum_widths (Rectangle.holes r) ->
  let r' := fst (Rectangle.add_holes r hs) in
  Rectangle.holes_total_width r' = sum_widths (Rectangle.holes r').
Proof.
  intros Hsum. destruct (add_holes_state r hs) as (added & rest & _ & E).
  cbv zeta. rewrite E. cbn -[sum_widths].
  rewrite sum_widths_app, Hsum. reflexivity.
Qed.

Lemma add_holes_total_is_sum_witness :
  let r := Rectangle.init 10 10 None None None in
  let r' := fst (Rectangle.add_holes r [Circle 1; Circle 5; Circle 1]) in
  Rectangle.holes_total_width r' = sum_widths (Rectangle.holes r').
Proof.
  intros r.
  apply (add_holes_total_is_sum r [Circle 1; Circle 5; Circle 1]).
  reflexivity.
Defined.

(** X4: A call of [add_holes] that returns after attaching at least one hole
    leaves the fit invariant established, provided the holes attached
    before fit the height. *)
Theorem add_holes_establishes_fit_invariant
    (r r' : Rectangle.t) (hs : list Hole.t) :
  Forall (fits_bottom r) (Rectangle.holes r) ->
  hs <> [] ->
  Rectangle.add_holes r hs = (r', Returned) ->
  fit_invariant r'.
Proof.
  intros Hold Hne E.
  assert (Hf : every_append_fits r hs).
  { apply add_holes_returns_iff. rewrite E. reflexivity. }
  destruct (add_holes_state r hs) as (added & rest & Ehs & E').
  rewrite E in E'. cbn [fst] in E'.
  assert (rest = []) as ->.
  { destruct rest as [| x rest]; [reflexivity |].
    destruct (add_holes_cases hs r)
      as [[_ E2] | (a & h & b & msg & _ & _ & _ & E2)];
      rewrite E in E2; [| discriminate E2].
    injection E2 as E2. rewrite E' in E2.
    apply (f_equal Rectangle.holes) in E2. cbn in E2.
    apply app_inv_head in E2. subst hs.
    apply (f_equal (@List.length Hole.t)) in E2.
    rewrite length_app in E2. cbn in E2. lia. }
  rewrite app_nil_r in Ehs. subst added r'.
  split.
  - destruct (exists_last Hne) as (a & h & ->).
    exact (proj1 (Hf a h [] eq_refl)).
  - cbn. apply Forall_app. split.
    + exact Hold.
    + apply Forall_forall. intros h Hin.
      destruct (in_split h hs Hin) as (a & b & ->).
      exact (proj2 (Hf a h b eq_refl)).
Qed.

Lemma add_holes_establishes_fit_invariant_witness :
  fit_invariant
    (with_appended (Rectangle.init 200 59 (Some 6) (Some 10) None)
       [Circle 5; Circle 5]).
Proof.
  apply (add_holes_establishes_fit_invariant
           (Rectangle.init 200 59 (Some 6) (Some 10) None) _
           [Circle 5; Circle 5]).
  - constructor.
  - discriminate.
  - do 2 add_holes_step. cbn [Rectangle.add_holes].
    rewrite !with_appended_app. reflexivity.
Defined.



(** X6: What [add_holes] raises is one of its two assertion errors, never
    anything else, and the message tells which check failed on the hole
    attached last: "holes don't fit into the rectangle" exactly when the
    side check fails, also when that hole is too high as well; "hole too
    large" when the side check passes and the hole is too high. *)
Theorem add_holes_diagnosis (hs : list Hole.t) :
  forall (r r' : Rectangle.t) (e : exn),
    Rectangle.add_holes r hs = (r', Raised e) ->
    exists front h,
      Rectangle.holes r' = front ++ [h] /\
      ((e = AssertionError "holes don't fit into the rectangle" /\
        ~ fits_side r')
       \/
       (e = AssertionError "hole too large" /\
        fits_side r' /\ ~ fits_bottom r' h)).
Proof.
  induction hs as [| x hs IH]; intros r r' e E.
  - discriminate E.
  - rewrite add_holes_cons in E. cbv zeta in E.
    destruct (Rgt_dec _ _) as [Hs | Hs].
    + destruct (Rge_dec _ _) as [Hb | Hb].
      * exact (IH _ _ _ E).
      * injection E as <- <-. exists (Rectangle.holes r), x.
        split; [reflexivity |]. right.
        split; [reflexivity |]. split; [exact Hs | exact Hb].
    + injection E as <- <-. exists (Rectangle.holes r), x.
      split; [reflexivity |]. left.
      split; [reflexivity | exact Hs].
Qed.

Lemma add_holes_diagnosis_witness :
  let r' := with_appended (Rectangle.init 10 10 None None None)
              [Circle 1; Circle 5] in
  exists front h,
    Rectangle.holes r' = front ++ [h] /\
    ((AssertionError "holes don't fit into the rectangle"
        = AssertionError "holes don't fit into the rectangle" /\
      ~ fits_side r')
     \/
     (AssertionError "holes don't fit into the rectangle"
        = AssertionError "hole too large" /\
      fits_side r' /\ ~ fits_bottom r' h)).
Proof.
  intros r'.
  apply (add_holes_diagnosis [Circle 1; Circle 5; Circle 1]
           (Rectangle.init 10 10 None None None)).
  add_holes_step. add_holes_step.
  rewrite with_appended_app. reflexivity.
Defined.





(** ** [add_rectangle] beyond its contract *)

(** Closes goals that equate entities, points or lists of them and differ
    only by real arithmetic in the coordinates. *)
Ltac same_coordinates :=
  repeat
    match goal with
    | |- _ :: _ = _ :: _ => apply f_equal2
    | |- (_, _) = (_, _) => apply f_equal2
    | |- DXF.CircleEntity _ _ = DXF.CircleEntity _ _ => apply f_equal2
    | |- DXF.LWPolyline _ _ = DXF.LWPolyline _ _ => apply f_equal2
    | |- _ = _ => first [reflexivity | ring | field]
    end.

Lemma enumerate_from_cons (i : nat) (h : Hole.t) (hs : list Hole.t) :
  enumerate_from i (h :: hs) = (i, h) :: enumerate_from (S i) hs.
Proof. reflexivity. Qed.

(** The loop of [add_rectangle] appends, hole by hole in the order of
    [enumerate], what each hole is drawn with. *)
Lemma draw_holes_flat_map (rectangle : Rectangle.t) (sx sy gap : R)
    (hs : list Hole.t) :
  forall (msp : DXF.t) (i : nat),
    DXF.draw_holes msp rectangle sx sy gap i hs =
      msp ++ flat_map (hole_entities rectangle sx sy gap)
               (enumerate_from i hs).
Proof.
  induction hs as [| h hs IH]; intros msp i.
  - cbn. rewrite app_nil_r. reflexivity.
  - rewrite enumerate_from_cons. cbn [DXF.draw_holes flat_map].
    rewrite IH, draw_hole_extends, <- app_assoc. reflexivity.
Qed.

Lemma hole_entities_length (rectangle : Rectangle.t) (sx sy gap : R)
    (ih : nat * Hole.t) :
  List.length (hole_entities rectangle sx sy gap ih)
  = entities_per_hole (snd ih).
Proof.
  unfold hole_entities, DXF.draw_hole, entities_per_hole.
  destruct (Hole.class_of (snd ih)); reflexivity.
Qed.

Lemma drawn_length (rectangle : Rectangle.t) (sx sy gap : R)
    (hs : list Hole.t) :
  forall i,
    List.length (flat_map (hole_entities rectangle sx sy gap)
                   (enumerate_from i hs))
    = list_sum (map entities_per_hole hs).
Proof.
  induction hs as [| h hs IH]; intros i.
  - reflexivity.
  - rewrite enumerate_from_cons. cbn [flat_map map list_sum].
    rewrite length_app, hole_entities_length, IH. reflexivity.
Qed.

(** X8: What [add_rectangle] does to a modelspace that already holds entities:
    it leaves them where they are and puts behind them exactly what it puts
    into an empty modelspace, with the same outcome.  Rectangles drawn one
    after the other do not influence each other. *)
Theorem add_rectangle_after_others (msp : DXF.t) (rectangle : Rectangle.t)
    (start_from_x start_from_y : R) :
  DXF.add_rectangle msp rectangle start_from_x start_from_y =
    (msp ++ fst (DXF.add_rectangle DXF.init rectangle
                   start_from_x start_from_y),
     snd (DXF.add_rectangle DXF.init rectangle start_from_x start_from_y)).
Proof.
  unfold DXF.add_rectangle, DXF.add_lwpolyline, DXF.init. cbv zeta.
  destruct (List.length (Rectangle.holes rectangle) <=? 1)%nat; cbn [fst snd].
  - reflexivity.
  - rewrite draw_holes_extends.
    rewrite (draw_holes_extends _ _ _ _ _ ([] ++ _)).
    rewrite <- !app_assoc. reflexivity.
Qed.

(** X9: How many entities a call of [add_rectangle] adds: the outline alone
    when it raises; otherwise the outline, one circle for every circle
    hole, two for every slot, and nothing for a hole that is neither. *)
Theorem add_rectangle_entity_count (msp : DXF.t) (rectangle : Rectangle.t)
    (start_from_x start_from_y : R) :
  List.length
    (fst (DXF.add_rectangle msp rectangle start_from_x start_from_y))
  = (List.length msp + 1
     + if (List.length (Rectangle.holes rectangle) <=? 1)%nat then 0
       else list_sum (map entities_per_hole (Rectangle.holes rectangle)))%nat.
Proof.
  unfold DXF.add_rectangle, DXF.add_lwpolyline. cbv zeta.
  destruct (List.length (Rectangle.holes rectangle) <=? 1)%nat; cbn [fst].
  - rewrite length_app. cbn. lia.
  - rewrite draw_holes_flat_map, !length_app, drawn_length. cbn. lia.
Qed.

Lemma outline_shift (rectangle : Rectangle.t) (dx dy sx sy : R) :
  outline rectangle (dx + sx) (dy + sy)
  = shift_entity (dx, dy) (outline rectangle sx sy).
Proof.
  unfold outline, shift_entity, shift_point, DXF.translate, DXF.box.
  cbn. same_coordinates.
Qed.

Lemma draw_hole_shift (rectangle : Rectangle.t) (dx dy sx sy gap : R)
    (i : nat) (h : Hole.t) :
  DXF.draw_hole [] rectangle (dx + sx) (dy + sy) gap i h
  = map (shift_entity (dx, dy)) (DXF.draw_hole [] rectangle sx sy gap i h).
Proof.
  unfold DXF.draw_hole, DXF.hole_center_x, DXF.hole_center_y, DXF.add_circle.
  destruct (Hole.class_of h); cbn; unfold shift_point; cbn; same_coordinates.
Qed.

Lemma draw_holes_shift (rectangle : Rectangle.t) (dx dy sx sy gap : R)
    (hs : list Hole.t) :
  forall i,
    DXF.draw_holes [] rectangle (dx + sx) (dy + sy) gap i hs
    = map (shift_entity (dx, dy))
        (DXF.draw_holes [] rectangle sx sy gap i hs).
Proof.
  induction hs as [| h hs IH]; intros i.
  - reflexivity.
  - cbn [DXF.draw_holes].
    rewrite draw_holes_extends,
      (draw_holes_extends _ _ _ _ _ (DXF.draw_hole [] _ sx sy _ _ _)).
    rewrite map_app, IH, draw_hole_shift. reflexivity.
Qed.

(** X10: The start point is a pure translation: drawing a rectangle from a start
    point moved by [(dx, dy)] gives the same entities moved by [(dx, dy)],
    with the same radii, in the same order, and the same outcome. *)
Theorem add_rectangle_translation (rectangle : Rectangle.t)
    (dx dy start_from_x start_from_y : R) :
  DXF.add_rectangle DXF.init rectangle
    (dx + start_from_x) (dy + start_from_y) =
    (map (shift_entity (dx, dy))
       (fst (DXF.add_rectangle DXF.init rectangle start_from_x start_from_y)),
     snd (DXF.add_rectangle DXF.init rectangle start_from_x start_from_y)).
Proof.
  unfold DXF.add_rectangle, DXF.add_lwpolyline, DXF.init. cbv zeta.
  fold (outline rectangle (dx + start_from_x) (dy + start_from_y)).
  fold (outline rectangle start_from_x start_from_y).
  destruct (List.length (Rectangle.holes rectangle) <=? 1)%nat; cbn [fst snd].
  - cbn. rewrite outline_shift. reflexivity.
  - rewrite draw_holes_extends,
      (draw_holes_extends _ start_from_x start_from_y).
    rewrite map_app, draw_holes_shift. cbn [app map].
    rewrite outline_shift. reflexivity.
Qed.

(** X11: [add_rectangle] does not check the fit itself.  With two or more holes
    the gap it spaces them by is positive exactly when the rectangle
    satisfies the side condition; otherwise it is zero or negative and the
    holes are drawn touching or overlapping. *)
Theorem add_rectangle_gap_positive_iff_fits (rectangle : Rectangle.t) :
  (2 <= List.length (Rectangle.holes rectangle))%nat ->
  (0 < space_between_holes rectangle <-> fits_side rectangle).
Proof.
  intros Hlen. unfold space_between_holes, fits_side.
  assert (Hn : 0 < INR (List.length (Rectangle.holes rectangle) - 1)).
  { apply lt_0_INR. lia. }
  set (n1 := INR (List.length (Rectangle.holes rectangle) - 1)) in *.
  set (room := Rectangle.width rectangle
               - 2 * Rectangle.offset_from_side rectangle
               - Rectangle.holes_total_width rectangle).
  split.
  - intros Hgap.
    assert (Hroom : 0 < room / n1 * n1) by (apply Rmult_lt_0_compat; assumption).
    replace (room / n1 * n1) with room in Hroom by (field; lra).
    unfold room in Hroom. lra.
  - intros Hfit. apply Rdiv_lt_0_compat; [unfold room; lra | exact Hn].
Qed.

Lemma add_rectangle_gap_positive_iff_fits_witness :
  let rectangle :=
    with_appended (Rectangle.init 10 10 None None None)
      [Circle 1; Circle 5] in
  0 < space_between_holes rectangle <-> fits_side rectangle.
Proof.
  intros rectangle.
  apply (add_rectangle_gap_positive_iff_fits rectangle).
  cbn. lia.
Defined.

(** ** Holes of one common width *)

Lemma nth_width_uniform (w : R) (hs : list Hole.t) (i : nat) :
  Forall (fun h => Hole.width h = w) hs ->
  (i < List.length hs)%nat ->
  Hole.width (nth i hs Hole.init) = w.
Proof.
  intros Hw Hi. rewrite Forall_forall in Hw.
  apply Hw, nth_In, Hi.
Qed.

(** The room between the side offsets is the gaps and the holes: with [n]
    holes of width [w] whose widths the running total sums up, [n - 1] gaps
    and [n] widths make up the width less the two offsets. *)
Lemma gaps_and_widths_fill_room (rectangle : Rectangle.t) (w : R) :
  (2 <= List.length (Rectangle.holes rectangle))%nat ->
  Forall (fun h => Hole.width h = w) (Rectangle.holes rectangle) ->
  Rectangle.holes_total_width rectangle
    = sum_widths (Rectangle.holes rectangle) ->
  let n := INR (List.length (Rectangle.holes rectangle)) in
  INR (List.length (Rectangle.holes rectangle) - 1) = n - 1 /\
  (n - 1) * space_between_holes rectangle + n * w
    = Rectangle.width rectangle - 2 * Rectangle.offset_from_side rectangle.
Proof.
  intros Hlen Hw Hsum n.
  assert (Hn1 : INR (List.length (Rectangle.holes rectangle) - 1) = n - 1).
  { unfold n. rewrite minus_INR by lia. reflexivity. }
  assert (Hn : 2 <= n).
  { unfold n. change 2 with (INR 2). apply le_INR. exact Hlen. }
  split; [exact Hn1 |].
  pose proof (sum_widths_uniform w _ Hw
                (List.length (Rectangle.holes rectangle)) (le_n _)) as Hs.
  rewrite firstn_all in Hs. fold n in Hs.
  unfold space_between_holes. rewrite Hn1, Hsum, Hs.
  field. lra.
Qed.

(** X12: With two or more holes of one common width, whose widths the running
    total sums up, the row is evenly spaced between the side offsets: the
    first hole starts at the side offset, from the end of each hole to the
    start of the next it is one gap, and the last hole ends at the side
    offset from the far edge. *)
Theorem add_rectangle_even_spacing (rectangle : Rectangle.t)
    (start_from_x w : R) :
  (2 <= List.length (Rectangle.holes rectangle))%nat ->
  Forall (fun h => Hole.width h = w) (Rectangle.holes rectangle) ->
  Rectangle.holes_total_width rectangle
    = sum_widths (Rectangle.holes rectangle) ->
  let holes := Rectangle.holes rectangle in
  let gap := space_between_holes rectangle in
  let hole i := nth i holes Hole.init in
  left_edge rectangle start_from_x gap 0 (hole 0%nat)
    = start_from_x + Rectangle.offset_from_side rectangle /\
  (forall i, (S i < List.length holes)%nat ->
     left_edge rectangle start_from_x gap (S i) (hole (S i))
     - right_edge rectangle start_from_x gap i (hole i) = gap) /\
  right_edge rectangle start_from_x gap (List.length holes - 1)
    (hole (List.length holes - 1)%nat)
    = start_from_x + Rectangle.width rectangle
      - Rectangle.offset_from_side rectangle.
Proof.
  intros Hlen Hw Hsum holes gap hole.
  destruct (gaps_and_widths_fill_room rectangle w Hlen Hw Hsum)
    as [Hn1 Hroom].
  unfold left_edge, right_edge, DXF.hole_center_x, hole, holes.
  split; [| split].
  - cbn [INR]. lra.
  - intros i Hi.
    rewrite !(nth_width_uniform w) by (assumption || lia).
    rewrite S_INR. lra.
  - rewrite (nth_width_uniform w) by (assumption || lia).
    rewrite Hn1. fold gap in Hroom. lra.
Qed.

Lemma add_rectangle_even_spacing_witness :
  let rectangle :=
    with_appended (Rectangle.init 200 59 (Some 6) (Some 10) None)
      [Circle 5; Circle 5; Circle 5] in
  let holes := Rectangle.holes rectangle in
  let gap := space_between_holes rectangle in
  let hole i := nth i holes Hole.init in
  left_edge rectangle 0 gap 0 (hole 0%nat)
    = 0 + Rectangle.offset_from_side rectangle /\
  (forall i, (S i < List.length holes)%nat ->
     left_edge rectangle 0 gap (S i) (hole (S i))
     - right_edge rectangle 0 gap i (hole i) = gap) /\
  right_edge rectangle 0 gap (List.length holes - 1)
    (hole (List.length holes - 1)%nat)
    = 0 + Rectangle.width rectangle - Rectangle.offset_from_side rectangle.
Proof.
  intros rectangle.
  apply (add_rectangle_even_spacing rectangle 0 (5 * 2)).
  - cbn. lia.
  - cbn. repeat constructor.
  - cbn. lra.
Defined.






(** ** Slots *)

(** X14: In [generate_dxf.py], for a slot of non-negative radius and
    length whose tilt has a non-negative sine and cosine, the size that the
    constructor computes and the two circles that [add_rectangle] draws
    agree: the box of the slot's width and height around its computed
    centre is the bounding box of the two circles, from the least to the
    greatest coordinate that either circle reaches, across and upwards. *)
Theorem Slot_box_bounds_drawn_circles (msp : DXF.t) (rectangle : Rectangle.t)
    (sx sy gap : R) (i : nat) (radius length angle : R) :
  0 <= radius -> 0 <= length -> 0 <= cos angle -> 0 <= sin angle ->
  let slot := Slot radius length angle in
  exists left_x left_y right_x right_y,
    DXF.draw_hole msp rectangle sx sy gap i slot =
      msp ++ [DXF.CircleEntity (left_x, left_y) radius;
              DXF.CircleEntity (right_x, right_y) radius] /\
    Rmin (left_x - radius) (right_x - radius)
      = left_edge rectangle sx gap i slot /\
    Rmax (left_x + radius) (right_x + radius)
      = right_edge rectangle sx gap i slot /\
    Rmin (left_y - radius) (right_y - radius)
      = bottom_edge rectangle sy slot /\
    Rmax (left_y + radius) (right_y + radius)
      = top_edge rectangle sy slot.
Proof.
  intros Hradius Hlength Hcos Hsin slot.
  assert (Hc : 0 <= length / 2 * cos angle).
  { apply Rmult_le_pos; lra. }
  assert (Hs : 0 <= length / 2 * sin angle).
  { apply Rmult_le_pos; lra. }
  do 4 eexists.
  split.
  - unfold DXF.draw_hole, DXF.add_circle. cbn [slot Slot Hole.class_of].
    rewrite <- app_assoc. reflexivity.
  - unfold left_edge, right_edge, top_edge, bottom_edge,
      DXF.hole_center_x, DXF.hole_center_y.
    cbn [slot Slot Hole.width Hole.height].
    set (c := length / 2 * cos angle) in *.
    set (s := length / 2 * sin angle) in *.
    replace (length * cos angle) with (2 * c) by (unfold c; field).
    replace (length * sin angle) with (2 * s) by (unfold s; field).
    unfold Rmin, Rmax.
    repeat split; destruct (Rle_dec _ _); lra.
Qed.

Lemma Slot_box_bounds_drawn_circles_witness :
  let slot := Slot 5 10 0 in
  let rectangle := Rectangle.init 150 50 (Some 40) (Some 5) None in
  exists left_x left_y right_x right_y,
    DXF.draw_hole DXF.init rectangle 0 0 1 0 slot =
      DXF.init ++ [DXF.CircleEntity (left_x, left_y) 5;
                   DXF.CircleEntity (right_x, right_y) 5] /\
    Rmin (left_x - 5) (right_x - 5) = left_edge rectangle 0 1 0 slot /\
    Rmax (left_x + 5) (right_x + 5) = right_edge rectangle 0 1 0 slot /\
    Rmin (left_y - 5) (right_y - 5) = bottom_edge rectangle 0 slot /\
    Rmax (left_y + 5) (right_y + 5) = top_edge rectangle 0 slot.
Proof.
  intros slot rectangle.
  apply (Slot_box_bounds_drawn_circles DXF.init rectangle 0 0 1 0 5 10 0).
  - lra.
  - lra.
  - rewrite cos_0. lra.
  - rewrite sin_0. lra.
Defined.

(** X15: Whatever its tilt, a slot of non-negative length is never given more
    room than its length and both end radii, across or upwards; in
    [generate_dxf.py] it is also never given less than the two radii less
    the length. *)
Theorem Slot_size_bounds (radius length angle : R) :
  (0 <= length ->
   2 * radius - length <= Hole.width (Slot radius length angle)
     <= length + 2 * radius /\
   2 * radius - length <= Hole.height (Slot radius length angle)
     <= length + 2 * radius) /\
  (0 <= length + 2 * radius ->
   - (length + 2 * radius) <= Hole.width (Main_py.Slot radius length angle)
     <= length + 2 * radius /\
   - (length + 2 * radius) <= Hole.height (Main_py.Slot radius length angle)
     <= length + 2 * radius).
Proof.
  pose proof (COS_bound angle) as [Hc1 Hc2].
  pose proof (SIN_bound angle) as [Hs1 Hs2].
  split; intros Hlen; cbn; repeat split; nra.
Qed.

Lemma Slot_size_bounds_witness :
  (2 * 5 - 10 <= Hole.width (Slot 5 10 45) <= 10 + 2 * 5 /\
   2 * 5 - 10 <= Hole.height (Slot 5 10 45) <= 10 + 2 * 5) /\
  (- (10 + 2 * 5) <= Hole.width (Main_py.Slot 5 10 45) <= 10 + 2 * 5 /\
   - (10 + 2 * 5) <= Hole.height (Main_py.Slot 5 10 45) <= 10 + 2 * 5).
Proof.
  split.
  - apply (proj1 (Slot_size_bounds 5 10 45)). lra.
  - apply (proj2 (Slot_size_bounds 5 10 45)). lra.
Defined.

(** ** Flattening *)

(** X16: A U-frame and its mirror image flatten to the same rectangle. *)
Theorem from_U_frame_mirror (u_frame : U_frame.t) :
  Rectangle.from_U_frame (mirror u_frame) = Rectangle.from_U_frame u_frame.
Proof.
  unfold Rectangle.from_U_frame, Rectangle.init, mirror. cbn.
  f_equal.
  destruct (Req_dec_T (U_frame.angle_left u_frame) 90),
    (Req_dec_T (U_frame.angle_right u_frame) 90); lra.
Qed.

(** X17: Flattening always shortens: an L-frame comes out shorter than its two
    legs together by between [0.5] and [1], a U-frame shorter than its three
    lengths together by between [1] and [2]. *)
Theorem flattened_height_bounds :
  (forall l_frame : L_frame.t,
     let legs :=
       L_frame.horizontal_length l_frame + L_frame.vertical_length l_frame in
     legs - 1 <= Rectangle.height (Rectangle.from_L_frame l_frame)
       <= legs - 0.5) /\
  (forall u_frame : U_frame.t,
     let legs :=
       U_frame.horizontal_length u_frame
       + U_frame.vertical_length_left u_frame
       + U_frame.vertical_length_right u_frame in
     legs - 2 <= Rectangle.height (Rectangle.from_U_frame u_frame)
       <= legs - 1).
Proof.
  split.
  - intros l_frame. cbn.
    destruct (Req_dec_T (L_frame.angle l_frame) 90); lra.
  - intros u_frame. cbn.
    destruct (Req_dec_T (U_frame.angle_left u_frame) 90),
      (Req_dec_T (U_frame.angle_right u_frame) 90); lra.
Qed.

(** ** The script of [main.py] *)

(** X18: The script body of [main.py] reaches its call of [save] without an
    exception.  What it hands over is, in this order: the outline of the
    first plate, which is [200] by [59.5] because of the frame comparison
    that never holds, with seven entities for its seven circles; then the
    outline of the second plate, [150] by [50] and started [70] up, with six
    entities for its three slots. *)
Theorem main_py_script_runs :
  snd main_py_script = Returned /\
  exists plate_1 plate_2 drawn_1 drawn_2,
    fst main_py_script =
      outline plate_1 0 0 :: drawn_1 ++ outline plate_2 0 70 :: drawn_2 /\
    Rectangle.width plate_1 = 200 /\ Rectangle.height plate_1 = 59.5 /\
    List.length drawn_1 = 7%nat /\
    Rectangle.width plate_2 = 150 /\ Rectangle.height plate_2 = 50 /\
    List.length drawn_2 = 6%nat.
Proof.
  pose proof (COS_bound 45) as [Hc1 Hc2].
  pose proof (SIN_bound 45) as [Hs1 Hs2].
  set (rectangle_1 :=
         Rectangle.set_offset_from_bottom
           (Rectangle.set_offset_from_side
              (Main_py.from_L_frame (L_frame.init 200 50 10 90 None)) 6) 10).
  set (rectangle_2 := Rectangle.init 150 50 (Some 40) (Some 5) None).
  set (circles := map (fun _ => Circle 5) (seq 0 7)).
  set (slots :=
         [Main_py.Slot 5 10 45; Main_py.Slot 5 10 45; Main_py.Slot 5 10 45]).
  assert (E1 : Rectangle.add_holes rectangle_1 circles
               = (with_appended rectangle_1 circles, Returned)).
  { unfold circles. cbn [map seq]. do 7 add_holes_step.
    cbn [Rectangle.add_holes]. rewrite !with_appended_app. reflexivity. }
  assert (E2 : Rectangle.add_holes rectangle_2 slots
               = (with_appended rectangle_2 slots, Returned)).
  { unfold slots. do 3 add_holes_step.
    cbn [Rectangle.add_holes]. rewrite !with_appended_app. reflexivity. }
  unfold main_py_script. cbv zeta.
  fold rectangle_1 rectangle_2 circles slots.
  rewrite E1.
  rewrite (add_rectangle_enough_holes DXF.init) by (cbn; lia).
  rewrite E2.
  rewrite add_rectangle_enough_holes by (cbn; lia).
  cbn [fst snd]. split; [reflexivity |].
  exists (with_appended rectangle_1 circles),
         (with_appended rectangle_2 slots).
  rewrite draw_holes_flat_map,
    (draw_holes_flat_map _ _ _ _ _ (DXF.init ++ _)).
  do 2 eexists. split.
  - unfold DXF.init. cbn [app]. rewrite <- app_assoc. cbn [app].
    replace (Rectangle.height (with_appended rectangle_2 slots) + 20)
      with 70 by (cbn; lra).
    reflexivity.
  - rewrite !drawn_length. cbn. repeat split; lra.
Qed.

(** ** More on the layout and on the two scripts *)

(** X19: When [add_rectangle] returns, the modelspace holds what it held before,
    then the outline, then for each attached hole in the order of the list
    what that hole is drawn with at its own index. *)
Theorem add_rectangle_draws_in_order (msp : DXF.t) (rectangle : Rectangle.t)
    (start_from_x start_from_y : R) :
  (2 <= List.length (Rectangle.holes rectangle))%nat ->
  DXF.add_rectangle msp rectangle start_from_x start_from_y =
    (msp ++
       outline rectangle start_from_x start_from_y
       :: flat_map
            (hole_entities rectangle start_from_x start_from_y
               (space_between_holes rectangle))
            (enumerate_from 0 (Rectangle.holes rectangle)),
     Returned).
Proof.
  intros Hlen. rewrite add_rectangle_enough_holes by exact Hlen.
  rewrite draw_holes_flat_map, <- app_assoc. reflexivity.
Qed.

Lemma add_rectangle_draws_in_order_witness :
  let rectangle :=
    with_appended (Rectangle.init 200 59 (Some 6) (Some 10) None)
      [Circle 5; Slot 5 10 0] in
  DXF.add_rectangle DXF.init rectangle 0 0 =
    (DXF.init ++
       outline rectangle 0 0
       :: flat_map (hole_entities rectangle 0 0 (space_between_holes rectangle))
            (enumerate_from 0 (Rectangle.holes rectangle)),
     Returned).
Proof.
  intros rectangle.
  apply (add_rectangle_draws_in_order DXF.init rectangle 0 0).
  cbn. lia.
Defined.

(** X20: How far [add_rectangle] is from the placement of the contract: hole
    [i] is centred off the contract's position by [i] times its own width
    less the widths of the holes before it.  The first hole is always
    where the contract puts it. *)
Theorem hole_center_x_deviation (rectangle : Rectangle.t)
    (start_from_x : R) (i : nat) :
  (1 <= List.length (Rectangle.holes rectangle))%nat ->
  let hole := nth i (Rectangle.holes rectangle) Hole.init in
  DXF.hole_center_x rectangle start_from_x (space_between_holes rectangle)
    i hole
  - spec_hole_center_x rectangle start_from_x i
  = INR i * Hole.width hole
    - sum_widths (firstn i (Rectangle.holes rectangle)).
Proof.
  intros Hlen hole.
  unfold DXF.hole_center_x, spec_hole_center_x.
  rewrite space_between_holes_spec_gap by exact Hlen.
  fold hole. lra.
Qed.

Lemma hole_center_x_deviation_witness :
  let rectangle :=
    with_appended (Rectangle.init 30 10 None None None)
      [Circle 1; Circle 2; Circle 3] in
  let hole := nth 2 (Rectangle.holes rectangle) Hole.init in
  DXF.hole_center_x rectangle 0 (space_between_holes rectangle) 2 hole
  - spec_hole_center_x rectangle 0 2
  = INR 2 * Hole.width hole
    - sum_widths (firstn 2 (Rectangle.holes rectangle)).
Proof.
  intros rectangle.
  apply (hole_center_x_deviation rectangle 0 2).
  cbn. lia.
Defined.

(** X21: A slot of length [0] has the size of the circle of its radius, in
    [generate_dxf.py], but is drawn as that circle twice, one on top of the
    other. *)
Theorem Slot_of_length_zero (rectangle : Rectangle.t) (sx sy gap : R)
    (i : nat) (radius angle : R) :
  Hole.width (Slot radius 0 angle) = Hole.width (Circle radius) /\
  Hole.height (Slot radius 0 angle) = Hole.height (Circle radius) /\
  DXF.draw_hole [] rectangle sx sy gap i (Slot radius 0 angle) =
    DXF.draw_hole [] rectangle sx sy gap i (Circle radius)
    ++ DXF.draw_hole [] rectangle sx sy gap i (Circle radius).
Proof.
  split; [cbn; lra |]. split; [cbn; lra |].
  unfold DXF.draw_hole, DXF.hole_center_x, DXF.hole_center_y, DXF.add_circle.
  cbn. same_coordinates.
Qed.

(** X22: The two scripts flatten an L-frame to the same rectangle exactly when
    its angle is not [90]. *)
Theorem from_L_frame_scripts_agree (l_frame : L_frame.t) :
  Main_py.from_L_frame l_frame = Rectangle.from_L_frame l_frame
  <-> L_frame.angle l_frame <> 90.
Proof.
  unfold Main_py.from_L_frame, Rectangle.from_L_frame,
    Main_py.frame_eq_number.
  destruct (Req_dec_T (L_frame.angle l_frame) 90) as [Heq | Hne].
  - split; [| tauto].
    intros E. apply (f_equal Rectangle.height) in E. cbn in E. lra.
  - split; [intros _; exact Hne | reflexivity].
Qed.
